(** * Shallow embedding of the Diolan DLN-2 ADC driver (dln2-adc.c)

    The driver talks to the adapter through the DLN-2 MFD transport
    ([dln2_transfer], [dln2_transfer_tx]).  The transport is an external
    collaborator: it is a parameter [xfer] of the development, a function
    from the history of requests already sent and the new request to the
    response the adapter gives.  The driver state is the private data
    [struct dln2_adc]; the state monad threads it together with the
    ordered log of requests sent to the adapter. *)

From Stdlib Require Import ZArith List Bool Lia.
From Stdlib Require Import Strings.Byte.
Import ListNotations.
Open Scope Z_scope.

(** ** Constants of the kernel headers and of the driver *)

(** errno values, <uapi/asm-generic/errno-base.h> and <errno.h>. *)
Definition EINVAL : Z := 22.
Definition EPROTO : Z := 71.

(** <linux/iio/types.h>: [IIO_VAL_INT] and the first member of
    [enum iio_chan_info_enum]. *)
Definition IIO_VAL_INT : Z := 1.
Definition IIO_CHAN_INFO_RAW : Z := 0.

Definition DLN2_ADC_MAX_CHANNELS : Z := 8.
Definition DLN2_ADC_DATA_BITS : Z := 10.

(** The ADC commands, [DLN2_CMD(opcode, DLN2_ADC_ID)]. *)
Inductive dln2_adc_cmd :=
| DLN2_ADC_GET_CHANNEL_COUNT
| DLN2_ADC_ENABLE
| DLN2_ADC_DISABLE
| DLN2_ADC_CHANNEL_ENABLE
| DLN2_ADC_CHANNEL_DISABLE
| DLN2_ADC_SET_RESOLUTION
| DLN2_ADC_CHANNEL_GET_VAL.

Definition DLN2_ADC_ID : Z := 6.

Definition cmd_opcode (c : dln2_adc_cmd) : Z :=
  match c with
  | DLN2_ADC_GET_CHANNEL_COUNT => 1
  | DLN2_ADC_ENABLE => 2
  | DLN2_ADC_DISABLE => 3
  | DLN2_ADC_CHANNEL_ENABLE => 5
  | DLN2_ADC_CHANNEL_DISABLE => 6
  | DLN2_ADC_SET_RESOLUTION => 8
  | DLN2_ADC_CHANNEL_GET_VAL => 10
  end.

(** ** C integer conversions *)

(** Assignment of an [int] to a [u8] field or variable. *)
Definition u8 (z : Z) : Z := Z.land z 255.
(** Conversion of an [int] argument to an [unsigned] parameter. *)
Definition u32 (z : Z) : Z := z mod 2 ^ 32.

Definition byte_val (b : byte) : Z := Z.of_N (Byte.to_N b).

(** [le16_to_cpu] on a two-byte [__le16] buffer. *)
Definition le16_to_cpu (bs : list byte) : Z :=
  match bs with
  | b0 :: b1 :: _ => byte_val b0 + 256 * byte_val b1
  | _ => 0
  end.

(** ** Transport requests and responses *)

Record dln2_req := mk_req { req_cmd : dln2_adc_cmd; req_payload : list Z }.

(** [resp_ret] is the return value of the transfer (negative on failure);
    [resp_data] the bytes of the response payload. *)
Record dln2_resp := mk_resp { resp_ret : Z; resp_data : list byte }.

(** ** Driver state *)

Record dln2_adc := mk_adc {
  port : Z;
  (* Set once initialized *)
  chans_enabled : Z
}.

Record world := mk_world { dev : dln2_adc; trace : list dln2_req }.

(** ** A small state monad *)

Definition M (A : Type) : Type := world -> A * world.

Definition ret {A} (a : A) : M A := fun w => (a, w).
Definition bind {A B} (m : M A) (k : A -> M B) : M B :=
  fun w => let (a, w') := m w in k a w'.
Definition get : M world := fun w => (w, w).
Definition set_chans_enabled (v : Z) : M unit :=
  fun w => (tt, mk_world (mk_adc (port (dev w)) v) (trace w)).

Notation "x <- m ;; k" := (bind m (fun x => k))
  (at level 61, m at next level, right associativity).

(** [dln2_adc_probe]: the private data comes from [devm_iio_device_alloc],
    which zeroes it, so [chans_enabled] starts at 0. *)
Definition dln2_adc_probe (pdata_port : Z) : dln2_adc := mk_adc pdata_port 0.

(** [dln2_adc_remove]: [iio_device_unregister] belongs to the IIO core; the
    driver sends no DLN-2 request and does not touch its private data. *)
Definition dln2_adc_remove : M Z := ret 0.

Section Driver.

Variable xfer : list dln2_req -> dln2_req -> dln2_resp.

(** [dln2_transfer(pdev, cmd, ibuf, ilen, obuf, &olen)]: one request, one
    response; at most [olen] bytes (the buffer size) are copied back and
    [olen] is updated to the number copied. *)
Definition dln2_transfer (cmd : dln2_adc_cmd) (payload : list Z) (olen : nat)
  : M (Z * list byte) :=
  fun w =>
    let r := mk_req cmd payload in
    let rs := xfer (trace w) r in
    ((resp_ret rs, firstn olen (resp_data rs)),
     mk_world (dev w) (trace w ++ [r])).

(** [dln2_transfer_tx]: a request whose response carries no payload. *)
Definition dln2_transfer_tx (cmd : dln2_adc_cmd) (payload : list Z) : M Z :=
  fun w =>
    let r := mk_req cmd payload in
    (resp_ret (xfer (trace w) r), mk_world (dev w) (trace w ++ [r])).

Definition dln2_adc_get_chan_count : M Z :=
  w <- get ;;
  let port := u8 (port (dev w)) in
  r <- dln2_transfer DLN2_ADC_GET_CHANNEL_COUNT [port] 1 ;;
  let '(ret0, count) := r in
  if ret0 <? 0 then ret ret0 else
  if Z.of_nat (length count) <? 1 then ret (- EPROTO) else
  ret (match count with c :: _ => byte_val c | [] => 0 end).

Definition dln2_adc_set_port_resolution : M Z :=
  w <- get ;;
  r <- dln2_transfer_tx DLN2_ADC_SET_RESOLUTION
         [u8 (port (dev w)); u8 DLN2_ADC_DATA_BITS] ;;
  if r <? 0 then ret r else ret 0.

Definition dln2_adc_set_chan_enabled (channel : Z) (enable : bool) : M Z :=
  w <- get ;;
  r <- dln2_transfer_tx
         (if enable then DLN2_ADC_CHANNEL_ENABLE else DLN2_ADC_CHANNEL_DISABLE)
         [u8 (port (dev w)); u8 channel] ;;
  if r <? 0 then ret r else ret 0.

(** The loop [for (i = 0; i < chan_count; ++i)] of
    [dln2_adc_set_port_enabled], from index [i] for [n] more iterations;
    [ret] of the loop body is returned at once when negative. *)
Fixpoint dln2_adc_enable_chans_loop (i : Z) (n : nat) : M Z :=
  match n with
  | O => ret 0
  | S n' =>
      r <- dln2_adc_set_chan_enabled i true ;;
      if r <? 0 then ret r else dln2_adc_enable_chans_loop (i + 1) n'
  end.

Definition dln2_adc_set_port_enabled (enable : bool) : M Z :=
  r <- dln2_adc_get_chan_count ;;
  if r <? 0 then ret r else
  let chan_count := r in
  r <- dln2_adc_set_port_resolution ;;
  if r <? 0 then ret r else
  r <- dln2_adc_enable_chans_loop 0 (Z.to_nat chan_count) ;;
  if r <? 0 then ret r else
  w <- get ;;
  r <- dln2_transfer (if enable then DLN2_ADC_ENABLE else DLN2_ADC_DISABLE)
         [u8 (port (dev w))] 2 ;;
  let '(ret0, conflict) := r in
  if ret0 <? 0 then ret ret0 else
  if Z.of_nat (length conflict) <? 2 then ret (- EPROTO) else
  ret 0.

(** Second half of [dln2_adc_read]: the CHANNEL_GET_VAL request. *)
Definition dln2_adc_read_value (channel : Z) : M Z :=
  w <- get ;;
  r <- dln2_transfer DLN2_ADC_CHANNEL_GET_VAL [u8 (port (dev w)); u8 channel] 2 ;;
  let '(ret0, value) := r in
  if ret0 <? 0 then ret ret0 else
  if Z.of_nat (length value) <? 2 then ret (- EPROTO) else
  ret (le16_to_cpu value).

(** [dln2_adc_read(dln2, channel)], [channel] being [unsigned]. *)
Definition dln2_adc_read (channel : Z) : M Z :=
  w <- get ;;
  if chans_enabled (dev w) =? 0 then
    r <- dln2_adc_set_port_enabled true ;;
    if r <? 0 then ret r else
    _ <- set_chans_enabled 1 ;;
    dln2_adc_read_value channel
  else dln2_adc_read_value channel.

(** [dln2_adc_read_raw(indio_dev, chan, val, val2, mask)]: returns the
    return value together with the final [*val] and [*val2].  The
    [mlock] mutex only serialises callers; in this sequential model
    every call runs alone. *)
Definition dln2_adc_read_raw (chan_channel : Z) (val val2 : Z) (mask : Z)
  : M (Z * Z * Z) :=
  if mask =? IIO_CHAN_INFO_RAW then
    r <- dln2_adc_read (u32 chan_channel) ;;
    if r <? 0 then ret (- EINVAL, val, val2)
    else ret (IIO_VAL_INT, r, val2)
  else ret (- EINVAL, val, val2).

(** ** Sequences of calls made by the host *)

(** Successive reads on the given channels. *)
Fixpoint dln2_adc_read_all (chs : list Z) : M (list Z) :=
  match chs with
  | [] => ret []
  | c :: cs =>
      r <- dln2_adc_read c ;;
      rs <- dln2_adc_read_all cs ;;
      ret (r :: rs)
  end.

(** The host-side operations on a probed device: [read_raw] calls from the
    IIO core and the final [remove]. *)
Inductive dln2_adc_op :=
| OpReadRaw (channel val val2 mask : Z)
| OpRemove.

Fixpoint dln2_adc_run (ops : list dln2_adc_op) : M unit :=
  match ops with
  | [] => ret tt
  | OpReadRaw ch v v2 m :: ops' =>
      _ <- dln2_adc_read_raw ch v v2 m ;; dln2_adc_run ops'
  | OpRemove :: ops' =>
      _ <- dln2_adc_remove ;; dln2_adc_run ops'
  end.

(** ** Vocabulary of the specification *)

(** The enable sequence for port byte [p] and [n] channels:
    GetChannelCount, SetResolution(10), ChannelEnable 0 .. n-1, then
    PortEnable (PortDisable when [enable] is false). *)
Definition enable_seq (p : Z) (n : nat) (enable : bool) : list dln2_req :=
  [mk_req DLN2_ADC_GET_CHANNEL_COUNT [p];
   mk_req DLN2_ADC_SET_RESOLUTION [p; DLN2_ADC_DATA_BITS]]
  ++ map (fun i => mk_req DLN2_ADC_CHANNEL_ENABLE [p; Z.of_nat i]) (seq 0 n)
  ++ [mk_req (if enable then DLN2_ADC_ENABLE else DLN2_ADC_DISABLE) [p]].

Definition get_val_req (p ch : Z) : dln2_req :=
  mk_req DLN2_ADC_CHANNEL_GET_VAL [p; u8 ch].

(** Declared minimum response length of each command. *)
Definition resp_min_len (c : dln2_adc_cmd) : Z :=
  match c with
  | DLN2_ADC_GET_CHANNEL_COUNT => 1
  | DLN2_ADC_ENABLE | DLN2_ADC_DISABLE | DLN2_ADC_CHANNEL_GET_VAL => 2
  | _ => 0
  end.

(** A response is acceptable: no transport error and long enough. *)
Definition req_ok (r : dln2_req) (rs : dln2_resp) : bool :=
  (0 <=? resp_ret rs) && (resp_min_len (req_cmd r) <=? Z.of_nat (length (resp_data rs))).

(** The error a failed step reports: the transport's own error, or the
    framing error [-EPROTO] for a short response. *)
Definition step_err (rs : dln2_resp) : Z :=
  if resp_ret rs <? 0 then resp_ret rs else - EPROTO.

Definition dummy_req : dln2_req := mk_req DLN2_ADC_GET_CHANNEL_COUNT [].

(** The response to step [k] of [cmds] once the steps before it were sent
    after history [h]. *)
Definition step_resp (h cmds : list dln2_req) (k : nat) : dln2_resp :=
  xfer (h ++ firstn k cmds) (nth k cmds dummy_req).

(** The first [k] steps of [cmds] all receive acceptable responses. *)
Fixpoint steps_ok (h cmds : list dln2_req) (k : nat) : bool :=
  match k, cmds with
  | O, _ => true
  | S k', c :: cs => req_ok c (xfer h c) && steps_ok (h ++ [c]) cs k'
  | S _, [] => true
  end.

(** The channel count the adapter reports to the first request of a
    read from [w]. *)
Definition gcc_count (w : world) : Z :=
  match resp_data (xfer (trace w)
                     (mk_req DLN2_ADC_GET_CHANNEL_COUNT [u8 (port (dev w))])) with
  | c :: _ => byte_val c
  | [] => 0
  end.

(** Running a list of requests in order, stopping at the first one whose
    response is not acceptable: its error and the requests sent. *)
Fixpoint run_steps (h cmds : list dln2_req) : Z * list dln2_req :=
  match cmds with
  | [] => (0, [])
  | c :: cs =>
      let rs := xfer h c in
      if req_ok c rs then let (e, l) := run_steps (h ++ [c]) cs in (e, c :: l)
      else (step_err rs, [c])
  end.

End Driver.


(** [dln2_adc_iio_channels]: the [.channel] of each entry of the channel
    table handed to the IIO core, [DLN2_ADC_CHAN(0)] .. [DLN2_ADC_CHAN(7)]. *)
Definition dln2_adc_iio_channels : list Z := [0; 1; 2; 3; 4; 5; 6; 7].

(** ** A concrete adapter, for the witnesses

    It reports 6 channels, answers PortEnable/PortDisable with a two-byte
    conflict mask and ChannelGetValue with the bytes [0xFF; 0x03]; the
    optional [fault] replaces the response to the request sent when the
    history has the given length. *)
Definition demo_response (r : dln2_req) : dln2_resp :=
  match req_cmd r with
  | DLN2_ADC_GET_CHANNEL_COUNT => mk_resp 0 [x06]
  | DLN2_ADC_ENABLE | DLN2_ADC_DISABLE => mk_resp 0 [x00; x00]
  | DLN2_ADC_CHANNEL_GET_VAL => mk_resp 0 [xff; x03]
  | _ => mk_resp 0 []
  end.

Definition demo_device (fault : option (nat * dln2_resp))
    (h : list dln2_req) (r : dln2_req) : dln2_resp :=
  match fault with
  | Some (i, rs) => if Nat.eqb i (length h) then rs else demo_response r
  | None => demo_response r
  end.

Definition demo_world (p flag : Z) : world := mk_world (mk_adc p flag) [].

(** An adapter like [demo_response] that reports 20 channels. *)
Definition wide_device (h : list dln2_req) (r : dln2_req) : dln2_resp :=
  match req_cmd r with
  | DLN2_ADC_GET_CHANNEL_COUNT => mk_resp 0 [x14]
  | _ => demo_response r
  end.

(** The channels of the [read_raw] calls with mask [IIO_CHAN_INFO_RAW]. *)
Fixpoint raw_reads (ops : list dln2_adc_op) : list Z :=
  match ops with
  | [] => []
  | OpReadRaw ch _ _ m :: ops' =>
      if m =? IIO_CHAN_INFO_RAW then ch :: raw_reads ops' else raw_reads ops'
  | OpRemove :: ops' => raw_reads ops'
  end.

(** Number of ChannelEnable requests in a list of requests. *)
Fixpoint count_chan_enable (l : list dln2_req) : nat :=
  match l with
  | [] => O
  | r :: l' =>
      match req_cmd r with
      | DLN2_ADC_CHANNEL_ENABLE => S (count_chan_enable l')
      | _ => count_chan_enable l'
      end
  end.

(** * Properties *)

Section Proofs.

Variable xfer : list dln2_req -> dln2_req -> dln2_resp.

(** ** Arithmetic of the C conversions *)

Lemma u8_small (z : Z) : 0 <= z < 256 -> u8 z = z.
Proof.
  intros Hz. unfold u8. change 255 with (Z.ones 8).
  rewrite Z.land_ones by lia. apply Z.mod_small. exact Hz.
Qed.

Lemma byte_val_range (b : byte) : 0 <= byte_val b < 256.
Proof.
  unfold byte_val. pose proof (Byte.to_N_bounded b). lia.
Qed.

Lemma le16_range (bs : list byte) : 0 <= le16_to_cpu bs < 65536.
Proof.
  destruct bs as [|b0 [|b1 bs]]; cbn [le16_to_cpu]; try lia.
  pose proof (byte_val_range b0). pose proof (byte_val_range b1). lia.
Qed.

Lemma step_err_neg (rs : dln2_resp) : step_err rs < 0.
Proof.
  unfold step_err, EPROTO. destruct (Z.ltb_spec (resp_ret rs) 0); lia.
Qed.

Lemma step_err_short (rs : dln2_resp) : 0 <= resp_ret rs -> step_err rs = - EPROTO.
Proof.
  intros H. unfold step_err. destruct (Z.ltb_spec (resp_ret rs) 0); [lia | reflexivity].
Qed.

(** ** Running a list of steps *)

Lemma run_steps_app (h l1 l2 : list dln2_req) :
  run_steps xfer h (l1 ++ l2) =
  let (e, i1) := run_steps xfer h l1 in
  if e =? 0 then let (e2, i2) := run_steps xfer (h ++ l1) l2 in (e2, l1 ++ i2)
  else (e, i1).
Proof.
  revert h. induction l1 as [|c l1 IH]; intros h; simpl.
  - rewrite app_nil_r. destruct (run_steps xfer h l2). reflexivity.
  - destruct (req_ok c (xfer h c)).
    + rewrite IH. destruct (run_steps xfer (h ++ [c]) l1) as [e i1].
      destruct (e =? 0).
      * rewrite <- app_assoc. simpl.
        destruct (run_steps xfer (h ++ c :: l1) l2). reflexivity.
      * reflexivity.
    + pose proof (step_err_neg (xfer h c)).
      destruct (Z.eqb_spec (step_err (xfer h c)) 0); [lia | reflexivity].
Qed.

Lemma run_steps_cases (h l : list dln2_req) :
  (run_steps xfer h l = (0, l) /\ steps_ok xfer h l (length l) = true)
  \/ (fst (run_steps xfer h l) < 0 /\ steps_ok xfer h l (length l) = false).
Proof.
  revert h. induction l as [|c l IH]; intros h; simpl.
  - left. split; reflexivity.
  - destruct (req_ok c (xfer h c)); simpl.
    + destruct (IH (h ++ [c])) as [[-> ->] | [Hneg Hok]].
      * left. split; reflexivity.
      * right. destruct (run_steps xfer (h ++ [c]) l). simpl in *. split; assumption.
    + right. split; [apply step_err_neg | reflexivity].
Qed.

Lemma run_steps_all_ok (h l : list dln2_req) :
  steps_ok xfer h l (length l) = true -> run_steps xfer h l = (0, l).
Proof.
  intros H. destruct (run_steps_cases h l) as [[E _] | [_ F]]; congruence.
Qed.

Lemma run_steps_first_fail (h l : list dln2_req) (k : nat) :
  (k < length l)%nat ->
  steps_ok xfer h l k = true ->
  req_ok (nth k l dummy_req) (step_resp xfer h l k) = false ->
  run_steps xfer h l = (step_err (step_resp xfer h l k), firstn (S k) l).
Proof.
  unfold step_resp. revert h k.
  induction l as [|c l IH]; intros h k Hk Hok Hfail; simpl in Hk; [lia|].
  destruct k as [|k]; simpl in *.
  - rewrite app_nil_r in *. rewrite Hfail. reflexivity.
  - apply andb_prop in Hok as [Hc Hok]. rewrite Hc.
    replace (h ++ c :: firstn k l) with ((h ++ [c]) ++ firstn k l) in *
      by (rewrite <- app_assoc; reflexivity).
    rewrite (IH (h ++ [c]) k) by (lia || assumption). reflexivity.
Qed.

(** ** The channel-enable loop and the enable sequence *)

Definition chan_enable_reqs (p : Z) (j m : nat) : list dln2_req :=
  map (fun i => mk_req DLN2_ADC_CHANNEL_ENABLE [p; Z.of_nat i]) (seq j m).

Lemma enable_chans_loop_run (m j : nat) (w : world) :
  (j + m <= 256)%nat ->
  dln2_adc_enable_chans_loop xfer (Z.of_nat j) m w =
  let rs := run_steps xfer (trace w) (chan_enable_reqs (u8 (port (dev w))) j m) in
  (fst rs, mk_world (dev w) (trace w ++ snd rs)).
Proof.
  revert j w. induction m as [|m IH]; intros j [d t] Hjm; simpl.
  - rewrite app_nil_r. reflexivity.
  - unfold chan_enable_reqs. simpl.
    unfold dln2_adc_set_chan_enabled, dln2_transfer_tx, bind, get, ret. simpl.
    rewrite (u8_small (Z.of_nat j)) by lia.
    destruct (xfer t (mk_req DLN2_ADC_CHANNEL_ENABLE [u8 (port d); Z.of_nat j]))
      as [r0 d0] eqn:E0; simpl.
    unfold req_ok, step_err; cbn [resp_ret resp_data req_cmd resp_min_len].
    destruct (r0 <? 0) eqn:Hlt.
    + pose proof Hlt as Hneg. apply Z.ltb_lt in Hneg.
      simpl. rewrite Hlt.
      destruct (Z.leb_spec 0 r0); [lia|]. simpl. rewrite ?Hlt. reflexivity.
    + apply Z.ltb_ge in Hlt. simpl.
      destruct (Z.leb_spec 0 r0); [|lia].
      destruct (Z.leb_spec 0 (Z.of_nat (length d0))); [|lia].
      simpl.
      replace (Z.of_nat j + 1) with (Z.of_nat (S j)) by lia.
      rewrite (IH (S j) (mk_world d (t ++ [mk_req DLN2_ADC_CHANNEL_ENABLE
                                                 [u8 (port d); Z.of_nat j]]))) by lia.
      simpl. unfold chan_enable_reqs.
      destruct (run_steps xfer _ _) as [e l]. simpl.
      rewrite <- app_assoc. reflexivity.
Qed.

Lemma enable_chans_loop_run0 (m : nat) (w : world) :
  (m <= 256)%nat ->
  dln2_adc_enable_chans_loop xfer 0 m w =
  let rs := run_steps xfer (trace w) (chan_enable_reqs (u8 (port (dev w))) 0 m) in
  (fst rs, mk_world (dev w) (trace w ++ snd rs)).
Proof.
  intros Hm. exact (enable_chans_loop_run m 0 w Hm).
Qed.

Lemma gcc_count_range (w : world) : 0 <= gcc_count xfer w < 256.
Proof.
  unfold gcc_count. destruct (resp_data _) as [|c l]; [lia|].
  apply byte_val_range.
Qed.

Lemma run_steps_cons (h : list dln2_req) (c : dln2_req) (l : list dln2_req) :
  run_steps xfer h (c :: l) =
  if req_ok c (xfer h c) then let (e, l') := run_steps xfer (h ++ [c]) l in (e, c :: l')
  else (step_err (xfer h c), [c]).
Proof. reflexivity. Qed.

Lemma get_chan_count_run (w : world) :
  dln2_adc_get_chan_count xfer w =
  (let r := mk_req DLN2_ADC_GET_CHANNEL_COUNT [u8 (port (dev w))] in
   let rs := xfer (trace w) r in
   if req_ok r rs then gcc_count xfer w else step_err rs,
   mk_world (dev w)
     (trace w ++ [mk_req DLN2_ADC_GET_CHANNEL_COUNT [u8 (port (dev w))]])).
Proof.
  destruct w as [d t].
  unfold dln2_adc_get_chan_count, dln2_transfer, gcc_count, bind, get, ret.
  cbn [dev trace].
  destruct (xfer t _) as [r0 d0].
  unfold req_ok, step_err. cbn [resp_ret resp_data req_cmd resp_min_len].
  destruct (r0 <? 0) eqn:Hlt.
  - apply Z.ltb_lt in Hlt. destruct (Z.leb_spec 0 r0); [lia|]. reflexivity.
  - apply Z.ltb_ge in Hlt. destruct (Z.leb_spec 0 r0); [|lia].
    destruct d0 as [|c d0]; [reflexivity|].
    destruct (Z.leb_spec 1 (Z.of_nat (length (c :: d0)))) as [_|Hl];
      [reflexivity | simpl in Hl; lia].
Qed.

Lemma set_port_resolution_run (w : world) :
  dln2_adc_set_port_resolution xfer w =
  (let r := mk_req DLN2_ADC_SET_RESOLUTION [u8 (port (dev w)); DLN2_ADC_DATA_BITS] in
   let rs := xfer (trace w) r in
   if req_ok r rs then 0 else step_err rs,
   mk_world (dev w)
     (trace w ++ [mk_req DLN2_ADC_SET_RESOLUTION
                    [u8 (port (dev w)); DLN2_ADC_DATA_BITS]])).
Proof.
  destruct w as [d t].
  unfold dln2_adc_set_port_resolution, dln2_transfer_tx, bind, get, ret.
  cbn [dev trace].
  replace (u8 DLN2_ADC_DATA_BITS) with DLN2_ADC_DATA_BITS by reflexivity.
  destruct (xfer t _) as [r0 d0].
  unfold req_ok, step_err. cbn [resp_ret resp_data req_cmd resp_min_len].
  destruct (r0 <? 0) eqn:Hlt.
  - apply Z.ltb_lt in Hlt. destruct (Z.leb_spec 0 r0); [lia|]. reflexivity.
  - apply Z.ltb_ge in Hlt. destruct (Z.leb_spec 0 r0); [|lia].
    destruct (Z.leb_spec 0 (Z.of_nat (length d0))); [|lia]. reflexivity.
Qed.

(** [dln2_adc_set_port_enabled] sends the enable sequence in order and
    stops at the first step without an acceptable response. *)
Lemma set_port_enabled_run (en : bool) (w : world) :
  dln2_adc_set_port_enabled xfer en w =
  let rs := run_steps xfer (trace w)
              (enable_seq (u8 (port (dev w))) (Z.to_nat (gcc_count xfer w)) en) in
  (fst rs, mk_world (dev w) (trace w ++ snd rs)).
Proof.
  destruct w as [d t].
  pose proof (gcc_count_range (mk_world d t)) as Hcnt.
  set (n := gcc_count xfer (mk_world d t)) in *.
  set (p := u8 (port d)).
  unfold dln2_adc_set_port_enabled, enable_seq.
  cbn [app]. rewrite !run_steps_cons.
  unfold bind at 1. rewrite get_chan_count_run. cbn [dev trace]. fold p. fold n.
  set (gcc := mk_req DLN2_ADC_GET_CHANNEL_COUNT [p]).
  cbv beta iota zeta.
  destruct (req_ok gcc (xfer t gcc)) eqn:H0.
  - replace (n <? 0) with false by (symmetry; apply Z.ltb_ge; lia).
    unfold bind at 1. rewrite set_port_resolution_run. cbn [dev trace]. fold p.
    set (sr := mk_req DLN2_ADC_SET_RESOLUTION [p; DLN2_ADC_DATA_BITS]).
    cbv beta iota zeta.
    destruct (req_ok sr (xfer (t ++ [gcc]) sr)) eqn:H1.
    + change (0 <? 0) with false. cbv beta iota.
      unfold bind at 1. rewrite enable_chans_loop_run0 by lia.
      cbn [dev trace]. fold p. unfold chan_enable_reqs.
      set (ces := map (fun i => mk_req DLN2_ADC_CHANNEL_ENABLE [p; Z.of_nat i])
                    (seq 0 (Z.to_nat n))).
      rewrite run_steps_app.
      destruct (run_steps_cases ((t ++ [gcc]) ++ [sr]) ces) as [[E _] | [Hneg _]].
      * rewrite E. cbn [fst snd]. change (0 =? 0) with true. change (0 <? 0) with false.
        cbv beta iota zeta.
        unfold get, dln2_transfer, ret, bind. cbv beta iota zeta.
        cbn [dev trace]. fold p.
        rewrite run_steps_cons. cbn [run_steps].
        set (pe := mk_req (if en then DLN2_ADC_ENABLE else DLN2_ADC_DISABLE) [p]).
        destruct (xfer (((t ++ [gcc]) ++ [sr]) ++ ces) pe) as [r3 d3] eqn:E3.
        assert (Hpe : req_ok pe (mk_resp r3 d3) =
                      (0 <=? r3) && (2 <=? Z.of_nat (length d3)))
          by (unfold req_ok, pe; destruct en; reflexivity).
        rewrite Hpe. unfold step_err. cbn [resp_ret resp_data fst snd].
        destruct (r3 <? 0) eqn:Hlt.
        -- apply Z.ltb_lt in Hlt. destruct (Z.leb_spec 0 r3); [lia|]. cbn.
           repeat rewrite <- app_assoc. reflexivity.
        -- apply Z.ltb_ge in Hlt. destruct (Z.leb_spec 0 r3); [|lia].
           rewrite length_firstn.
           destruct (Z.leb_spec 2 (Z.of_nat (length d3))) as [Hl|Hl].
           ++ replace (Z.of_nat (Nat.min 2 (length d3)) <? 2) with false
                by (symmetry; apply Z.ltb_ge; lia).
              cbn. repeat rewrite <- app_assoc. reflexivity.
           ++ replace (Z.of_nat (Nat.min 2 (length d3)) <? 2) with true
                by (symmetry; apply Z.ltb_lt; lia).
              cbn. repeat rewrite <- app_assoc. reflexivity.
      * destruct (run_steps xfer ((t ++ [gcc]) ++ [sr]) ces) as [e l].
        cbn [fst] in Hneg. cbn [fst snd]. cbv beta iota zeta.
        replace (e <? 0) with true by (symmetry; apply Z.ltb_lt; exact Hneg).
        replace (e =? 0) with false by (symmetry; apply Z.eqb_neq; lia).
        unfold ret. cbn. repeat rewrite <- app_assoc. reflexivity.
    + pose proof (step_err_neg (xfer (t ++ [gcc]) sr)) as Hneg.
      replace (step_err (xfer (t ++ [gcc]) sr) <? 0) with true
        by (symmetry; apply Z.ltb_lt; exact Hneg).
      unfold ret. cbn. repeat rewrite <- app_assoc. reflexivity.
  - pose proof (step_err_neg (xfer t gcc)) as Hneg.
    replace (step_err (xfer t gcc) <? 0) with true
      by (symmetry; apply Z.ltb_lt; exact Hneg).
    reflexivity.
Qed.

(** ** [dln2_adc_read] *)

Lemma le16_firstn (l : list byte) : le16_to_cpu (firstn 2 l) = le16_to_cpu l.
Proof. destruct l as [|b0 [|b1 l]]; reflexivity. Qed.

Lemma read_value_run (ch : Z) (w : world) :
  dln2_adc_read_value xfer ch w =
  (let r := get_val_req (u8 (port (dev w))) ch in
   let rs := xfer (trace w) r in
   if req_ok r rs then le16_to_cpu (resp_data rs) else step_err rs,
   mk_world (dev w) (trace w ++ [get_val_req (u8 (port (dev w))) ch])).
Proof.
  destruct w as [d t].
  unfold dln2_adc_read_value, dln2_transfer, get_val_req, bind, get, ret.
  cbn [dev trace].
  destruct (xfer t _) as [r0 d0].
  unfold req_ok, step_err. cbn [resp_ret resp_data req_cmd resp_min_len].
  destruct (r0 <? 0) eqn:Hlt.
  - apply Z.ltb_lt in Hlt. destruct (Z.leb_spec 0 r0); [lia|]. reflexivity.
  - apply Z.ltb_ge in Hlt. destruct (Z.leb_spec 0 r0); [|lia].
    rewrite length_firstn, le16_firstn.
    destruct (Z.leb_spec 2 (Z.of_nat (length d0))) as [Hl|Hl].
    + replace (Z.of_nat (Nat.min 2 (length d0)) <? 2) with false
        by (symmetry; apply Z.ltb_ge; lia). reflexivity.
    + replace (Z.of_nat (Nat.min 2 (length d0)) <? 2) with true
        by (symmetry; apply Z.ltb_lt; lia). reflexivity.
Qed.

Lemma read_enabled (ch : Z) (w : world) :
  chans_enabled (dev w) <> 0 ->
  dln2_adc_read xfer ch w = dln2_adc_read_value xfer ch w.
Proof.
  intros H. unfold dln2_adc_read, bind, get.
  destruct (Z.eqb_spec (chans_enabled (dev w)) 0); [contradiction | reflexivity].
Qed.

Lemma read_uninit (ch : Z) (w : world) :
  chans_enabled (dev w) = 0 ->
  dln2_adc_read xfer ch w =
  let rs := run_steps xfer (trace w)
              (enable_seq (u8 (port (dev w))) (Z.to_nat (gcc_count xfer w)) true) in
  if fst rs <? 0 then (fst rs, mk_world (dev w) (trace w ++ snd rs))
  else dln2_adc_read_value xfer ch
         (mk_world (mk_adc (port (dev w)) 1) (trace w ++ snd rs)).
Proof.
  intros H. unfold dln2_adc_read, bind at 1, get. rewrite H. cbn [Z.eqb].
  unfold bind at 1. rewrite set_port_enabled_run. cbv beta iota zeta.
  destruct (fst _ <? 0); reflexivity.
Qed.

(** A read leaves the port alone, and either keeps the flag or sets it. *)
Lemma read_dev (ch : Z) (w : world) :
  dev (snd (dln2_adc_read xfer ch w)) = dev w
  \/ dev (snd (dln2_adc_read xfer ch w)) = mk_adc (port (dev w)) 1.
Proof.
  destruct (Z.eqb_spec (chans_enabled (dev w)) 0) as [H0 | H0].
  - rewrite read_uninit by exact H0. cbv zeta.
    destruct (fst _ <? 0).
    + left. reflexivity.
    + right. rewrite read_value_run. reflexivity.
  - left. rewrite read_enabled, read_value_run by exact H0. reflexivity.
Qed.

Lemma read_all_enabled (chs : list Z) (w : world) :
  chans_enabled (dev w) <> 0 ->
  dev (snd (dln2_adc_read_all xfer chs w)) = dev w /\
  trace (snd (dln2_adc_read_all xfer chs w)) =
  trace w ++ map (get_val_req (u8 (port (dev w)))) chs.
Proof.
  revert w. induction chs as [|c chs IH]; intros w H; simpl.
  - rewrite app_nil_r. split; reflexivity.
  - unfold bind, ret. rewrite (read_enabled c w H), (read_value_run c w).
    cbv beta iota zeta.
    destruct (IH (mk_world (dev w) (trace w ++ [get_val_req (u8 (port (dev w))) c])) H)
      as [Hd Ht].
    destruct (dln2_adc_read_all xfer chs _) as [rs w2]. cbn [snd] in *.
    split; [exact Hd|]. rewrite Ht. cbn [dev trace]. rewrite <- app_assoc. reflexivity.
Qed.

Lemma read_success_enabled (ch : Z) (w : world) :
  0 <= fst (dln2_adc_read xfer ch w) ->
  chans_enabled (dev (snd (dln2_adc_read xfer ch w))) <> 0.
Proof.
  destruct (Z.eqb_spec (chans_enabled (dev w)) 0) as [H0 | H0].
  - rewrite read_uninit by exact H0. cbv zeta.
    destruct (Z.ltb_spec (fst (run_steps xfer (trace w) (enable_seq (u8 (port (dev w)))
               (Z.to_nat (gcc_count xfer w)) true))) 0) as [Hlt | Hge].
    + cbn [fst]. lia.
    + intros _. rewrite read_value_run. cbn. lia.
  - rewrite read_enabled, read_value_run by exact H0. intros _. exact H0.
Qed.

Lemma enable_seq_length (p : Z) (n : nat) (en : bool) :
  length (enable_seq p n en) = (3 + n)%nat.
Proof.
  unfold enable_seq. rewrite !length_app, length_map, length_seq. simpl. lia.
Qed.

Lemma enable_seq_last (p : Z) (n : nat) (en : bool) :
  nth (2 + n) (enable_seq p n en) dummy_req =
  mk_req (if en then DLN2_ADC_ENABLE else DLN2_ADC_DISABLE) [p].
Proof.
  unfold enable_seq. cbn [app nth Nat.add].
  rewrite app_nth2 by (rewrite length_map, length_seq; lia).
  rewrite length_map, length_seq, Nat.sub_diag. reflexivity.
Qed.

Lemma enable_seq_firstn_all (p : Z) (n : nat) (en : bool) :
  firstn (S (2 + n)) (enable_seq p n en) = enable_seq p n en.
Proof.
  apply firstn_all2. rewrite enable_seq_length. lia.
Qed.

(** Requests that are neither PortDisable nor ChannelDisable. *)
Definition no_disable (r : dln2_req) : Prop :=
  req_cmd r <> DLN2_ADC_DISABLE /\ req_cmd r <> DLN2_ADC_CHANNEL_DISABLE.

Lemma run_steps_Forall (P : dln2_req -> Prop) (h l : list dln2_req) :
  Forall P l -> Forall P (snd (run_steps xfer h l)).
Proof.
  revert h. induction l as [|c l IH]; intros h Hl; simpl; [constructor|].
  inversion Hl as [|? ? Hc Hl']; subst.
  destruct (req_ok c (xfer h c)).
  - specialize (IH (h ++ [c]) Hl'). destruct (run_steps xfer (h ++ [c]) l).
    constructor; assumption.
  - constructor; [assumption | constructor].
Qed.

Lemma enable_seq_no_disable (p : Z) (n : nat) :
  Forall no_disable (enable_seq p n true).
Proof.
  unfold enable_seq, no_disable.
  apply Forall_app. split; [|apply Forall_app; split].
  - constructor; [split; discriminate|].
    constructor; [split; discriminate | constructor].
  - apply Forall_map, Forall_forall. intros. split; discriminate.
  - constructor; [split; discriminate | constructor].
Qed.

Lemma read_no_disable (ch : Z) (w : world) :
  exists t, trace (snd (dln2_adc_read xfer ch w)) = trace w ++ t /\ Forall no_disable t.
Proof.
  assert (Hgv : forall p, no_disable (get_val_req p ch))
    by (intros; split; discriminate).
  destruct (Z.eqb_spec (chans_enabled (dev w)) 0) as [H0 | H0].
  - rewrite read_uninit by exact H0. cbv zeta.
    pose proof (run_steps_Forall no_disable (trace w) _
                  (enable_seq_no_disable (u8 (port (dev w)))
                     (Z.to_nat (gcc_count xfer w)))) as Hf.
    destruct (run_steps xfer _ _) as [e l]. cbn [fst snd] in *.
    destruct (e <? 0).
    + exists l. split; [reflexivity | exact Hf].
    + rewrite read_value_run. cbn. exists (l ++ [get_val_req (u8 (port (dev w))) ch]).
      split; [rewrite app_assoc; reflexivity|].
      apply Forall_app. split; [exact Hf | constructor; [apply Hgv | constructor]].
  - rewrite read_enabled, read_value_run by exact H0. cbn.
    exists [get_val_req (u8 (port (dev w))) ch].
    split; [reflexivity | constructor; [apply Hgv | constructor]].
Qed.

Lemma read_raw_cases (ch val val2 mask : Z) (w : world) :
  snd (dln2_adc_read_raw xfer ch val val2 mask w) = w
  \/ snd (dln2_adc_read_raw xfer ch val val2 mask w) = snd (dln2_adc_read xfer (u32 ch) w).
Proof.
  unfold dln2_adc_read_raw.
  destruct (mask =? IIO_CHAN_INFO_RAW); [right | left; reflexivity].
  unfold bind, ret. destruct (dln2_adc_read xfer (u32 ch) w) as [r w'].
  destruct (r <? 0); reflexivity.
Qed.

Lemma read_success_bound (ch : Z) (w : world) :
  0 <= fst (dln2_adc_read xfer ch w) -> fst (dln2_adc_read xfer ch w) <= 65535.
Proof.
  assert (Hv : forall w', fst (dln2_adc_read_value xfer ch w') <= 65535).
  { intros w'. rewrite read_value_run. cbv zeta. cbn [fst].
    destruct (req_ok _ _).
    - pose proof (le16_range (resp_data (xfer (trace w')
                    (get_val_req (u8 (port (dev w'))) ch)))). lia.
    - pose proof (step_err_neg (xfer (trace w') (get_val_req (u8 (port (dev w'))) ch))).
      lia. }
  destruct (Z.eqb_spec (chans_enabled (dev w)) 0) as [H0 | H0].
  - rewrite read_uninit by exact H0. cbv zeta.
    destruct (Z.ltb_spec (fst (run_steps xfer (trace w) (enable_seq (u8 (port (dev w)))
               (Z.to_nat (gcc_count xfer w)) true))) 0) as [Hlt | Hge].
    + cbn [fst]. lia.
    + intros _. apply Hv.
  - rewrite read_enabled by exact H0. intros _. apply Hv.
Qed.

(** ** Further helper lemmas *)

Lemma u8_add_multiple (ch k : Z) : u8 (ch + 256 * k) = u8 ch.
Proof.
  unfold u8. change 255 with (Z.ones 8). rewrite !Z.land_ones by lia.
  change (2 ^ 8) with 256. rewrite Z.mul_comm. apply Z.mod_add. lia.
Qed.

Lemma read_raw_raw_world (ch val val2 : Z) (w : world) :
  snd (dln2_adc_read_raw xfer ch val val2 IIO_CHAN_INFO_RAW w) =
  snd (dln2_adc_read xfer (u32 ch) w).
Proof.
  unfold dln2_adc_read_raw. change (IIO_CHAN_INFO_RAW =? IIO_CHAN_INFO_RAW) with true.
  cbv iota. unfold bind, ret. destruct (dln2_adc_read xfer (u32 ch) w) as [r w'].
  destruct (r <? 0); reflexivity.
Qed.

Lemma read_uninit_first (ch : Z) (w : world) :
  chans_enabled (dev w) = 0 ->
  exists rest, trace (snd (dln2_adc_read xfer ch w)) =
               trace w ++ mk_req DLN2_ADC_GET_CHANNEL_COUNT [u8 (port (dev w))] :: rest.
Proof.
  intros H0. rewrite read_uninit by exact H0. cbv zeta.
  unfold enable_seq. cbn [app]. rewrite run_steps_cons.
  destruct (req_ok _ _).
  - destruct (run_steps xfer _ _) as [e l]. cbn [fst snd].
    destruct (e <? 0).
    + exists l. reflexivity.
    + rewrite read_value_run. cbn [snd trace dev port].
      exists (l ++ [get_val_req (u8 (port (dev w))) ch]).
      rewrite <- app_assoc. reflexivity.
  - cbn [fst snd]. rewrite (proj2 (Z.ltb_lt _ 0) (step_err_neg _)).
    exists []. reflexivity.
Qed.

Lemma count_chan_enable_app (l1 l2 : list dln2_req) :
  count_chan_enable (l1 ++ l2) = (count_chan_enable l1 + count_chan_enable l2)%nat.
Proof.
  induction l1 as [|r l1 IH]; simpl; [reflexivity|].
  destruct (req_cmd r); rewrite IH; reflexivity.
Qed.

Lemma count_chan_enable_seq (p : Z) (n : nat) (en : bool) :
  count_chan_enable (enable_seq p n en) = n.
Proof.
  unfold enable_seq. rewrite !count_chan_enable_app.
  assert (Hm : forall j, count_chan_enable
             (map (fun i => mk_req DLN2_ADC_CHANNEL_ENABLE [p; Z.of_nat i]) (seq j n)) = n).
  { induction n as [|n IH]; intros j; simpl; [reflexivity|]. rewrite IH. reflexivity. }
  rewrite Hm. destruct en; simpl; lia.
Qed.

Lemma u8_u32 (z : Z) : u8 (u32 z) = u8 z.
Proof.
  unfold u8, u32. change 255 with (Z.ones 8). rewrite !Z.land_ones by lia.
  apply Z.mod_mod_divide. exists (2 ^ 24). reflexivity.
Qed.

Lemma read_value_low_byte (c1 c2 : Z) (w : world) :
  u8 c1 = u8 c2 -> dln2_adc_read_value xfer c1 w = dln2_adc_read_value xfer c2 w.
Proof.
  intros H. rewrite !read_value_run. unfold get_val_req. rewrite H. reflexivity.
Qed.

Lemma read_low_byte (c1 c2 : Z) (w : world) :
  u8 c1 = u8 c2 -> dln2_adc_read xfer c1 w = dln2_adc_read xfer c2 w.
Proof.
  intros H. destruct (Z.eqb_spec (chans_enabled (dev w)) 0) as [H0 | H0].
  - rewrite !read_uninit by exact H0. cbv zeta.
    destruct (fst _ <? 0); [reflexivity|]. apply read_value_low_byte. exact H.
  - rewrite !read_enabled by exact H0. apply read_value_low_byte. exact H.
Qed.

Lemma read_raw_world (ch val val2 mask : Z) (w : world) :
  snd (dln2_adc_read_raw xfer ch val val2 mask w) =
  if mask =? IIO_CHAN_INFO_RAW then snd (dln2_adc_read xfer (u32 ch) w) else w.
Proof.
  unfold dln2_adc_read_raw. destruct (mask =? IIO_CHAN_INFO_RAW); [|reflexivity].
  unfold bind, ret. destruct (dln2_adc_read xfer (u32 ch) w) as [r w'].
  destruct (r <? 0); reflexivity.
Qed.

Lemma enable_seq_no_chan_disable (p : Z) (n : nat) (en : bool) :
  Forall (fun q => req_cmd q <> DLN2_ADC_CHANNEL_DISABLE) (enable_seq p n en).
Proof.
  unfold enable_seq.
  apply Forall_app. split; [|apply Forall_app; split].
  - constructor; [discriminate|]. constructor; [discriminate | constructor].
  - apply Forall_map, Forall_forall. intros. discriminate.
  - constructor; [destruct en; discriminate | constructor].
Qed.

End Proofs.

(** * The claims *)

Section Claims.

Variable xfer : list dln2_req -> dln2_req -> dln2_resp.

(** C3: the first read on an Uninitialized context sends GetChannelCount
    for the port, SetResolution 10, ChannelEnable for channels 0 to
    count-1 in increasing order, then PortEnable; the enabled flag ends up
    set exactly when every one of these steps got an acceptable response
    (so only after PortEnable succeeded), and then the requests sent are
    exactly that sequence followed by the ChannelGetValue of the read. *)
Theorem enable_sequence_order (w : world) (ch : Z) :
  chans_enabled (dev w) = 0 ->
  let p := u8 (port (dev w)) in
  let cmds := enable_seq p (Z.to_nat (gcc_count xfer w)) true in
  let w' := snd (dln2_adc_read xfer ch w) in
  (chans_enabled (dev w') <> 0 <-> steps_ok xfer (trace w) cmds (length cmds) = true) /\
  (steps_ok xfer (trace w) cmds (length cmds) = true ->
     chans_enabled (dev w') = 1 /\ trace w' = trace w ++ cmds ++ [get_val_req p ch]).
Proof.
  intros H0. cbv zeta. rewrite read_uninit by exact H0. cbv zeta.
  destruct (run_steps_cases xfer (trace w)
              (enable_seq (u8 (port (dev w))) (Z.to_nat (gcc_count xfer w)) true))
    as [[E Hok] | [Hneg Hok]].
  - rewrite E, Hok. cbn [fst snd]. change (0 <? 0) with false. cbv iota.
    rewrite read_value_run. cbv zeta. cbn [fst snd dev trace chans_enabled port].
    rewrite <- app_assoc. split; [split; intros; [reflexivity | lia] |].
    intros _. split; reflexivity.
  - rewrite Hok. destruct (run_steps xfer _ _) as [e l]. cbn [fst snd] in *.
    replace (e <? 0) with true by (symmetry; apply Z.ltb_lt; exact Hneg).
    cbn [snd dev]. rewrite H0.
    split; [split; intros H; [contradiction | discriminate] | discriminate].
Qed.

(** C4: if a step of the enable sequence fails (step [k] is the first
    whose response is not acceptable), the read returns that step's error,
    the context is unchanged (the enabled flag stays 0), and the requests
    sent are exactly the steps up to and including step [k]: no later step
    and no ChannelGetValue. *)
Theorem enable_failure_stops (w : world) (ch : Z) (k : nat) :
  chans_enabled (dev w) = 0 ->
  let p := u8 (port (dev w)) in
  let cmds := enable_seq p (Z.to_nat (gcc_count xfer w)) true in
  (k < length cmds)%nat ->
  steps_ok xfer (trace w) cmds k = true ->
  req_ok (nth k cmds dummy_req) (step_resp xfer (trace w) cmds k) = false ->
  dln2_adc_read xfer ch w =
  (step_err (step_resp xfer (trace w) cmds k),
   mk_world (dev w) (trace w ++ firstn (S k) cmds)).
Proof.
  intros H0. cbv zeta. intros Hk Hok Hf.
  rewrite read_uninit by exact H0. cbv zeta.
  rewrite (run_steps_first_fail xfer _ _ k Hk Hok Hf). cbn [fst snd].
  replace (step_err _ <? 0) with true
    by (symmetry; apply Z.ltb_lt; apply step_err_neg).
  reflexivity.
Qed.

(** C5: after a successful read the context is Enabled, and any sequence
    of later reads, on any channels, sends only their ChannelGetValue
    requests. *)
Theorem enabled_read_only_get_val (w : world) (ch : Z) (chs : list Z) :
  0 <= fst (dln2_adc_read xfer ch w) ->
  let w1 := snd (dln2_adc_read xfer ch w) in
  chans_enabled (dev w1) <> 0 /\
  trace (snd (dln2_adc_read_all xfer chs w1)) =
  trace w1 ++ map (get_val_req (u8 (port (dev w1)))) chs.
Proof.
  intros Hr. cbv zeta.
  pose proof (read_success_enabled xfer ch w Hr) as Hen.
  split; [exact Hen|]. apply (read_all_enabled xfer chs _ Hen).
Qed.

(** C6: a response shorter than the declared minimum, while the transport
    itself reports success, makes the operation fail with the framing
    error [-EPROTO] and leaves the driver state unchanged: for
    GetChannelCount (a zero-byte response gives [-EPROTO], never a count of
    0), for PortEnable/PortDisable at the end of the enable sequence, and
    for ChannelGetValue. *)
Theorem short_response_framing_error (w : world) (ch : Z) :
  let p := u8 (port (dev w)) in
  let n := Z.to_nat (gcc_count xfer w) in
  let gcc := mk_req DLN2_ADC_GET_CHANNEL_COUNT [p] in
  (0 <= resp_ret (xfer (trace w) gcc) ->
   resp_data (xfer (trace w) gcc) = [] ->
   dln2_adc_get_chan_count xfer w = (- EPROTO, mk_world (dev w) (trace w ++ [gcc])) /\
   (chans_enabled (dev w) = 0 ->
    dln2_adc_read xfer ch w = (- EPROTO, mk_world (dev w) (trace w ++ [gcc])))) /\
  (forall en : bool,
   let cmds := enable_seq p n en in
   steps_ok xfer (trace w) cmds (2 + n) = true ->
   0 <= resp_ret (step_resp xfer (trace w) cmds (2 + n)) ->
   (length (resp_data (step_resp xfer (trace w) cmds (2 + n))) < 2)%nat ->
   dln2_adc_set_port_enabled xfer en w = (- EPROTO, mk_world (dev w) (trace w ++ cmds)) /\
   (en = true -> chans_enabled (dev w) = 0 ->
    dln2_adc_read xfer ch w = (- EPROTO, mk_world (dev w) (trace w ++ cmds)))) /\
  (chans_enabled (dev w) <> 0 ->
   0 <= resp_ret (xfer (trace w) (get_val_req p ch)) ->
   (length (resp_data (xfer (trace w) (get_val_req p ch))) < 2)%nat ->
   dln2_adc_read xfer ch w = (- EPROTO, mk_world (dev w) (trace w ++ [get_val_req p ch]))).
Proof.
  cbv zeta. split; [|split].
  - intros Hr Hd.
    assert (Hok : req_ok (mk_req DLN2_ADC_GET_CHANNEL_COUNT [u8 (port (dev w))])
                    (xfer (trace w) (mk_req DLN2_ADC_GET_CHANNEL_COUNT [u8 (port (dev w))]))
                  = false)
      by (unfold req_ok; rewrite Hd; cbn; destruct (0 <=? _); reflexivity).
    assert (He : step_err (xfer (trace w)
                   (mk_req DLN2_ADC_GET_CHANNEL_COUNT [u8 (port (dev w))])) = - EPROTO)
      by (apply step_err_short; exact Hr).
    split.
    + rewrite get_chan_count_run. cbv zeta. rewrite Hok, He. reflexivity.
    + intros H0. rewrite read_uninit by exact H0. cbv zeta.
      unfold enable_seq. cbn [app]. rewrite run_steps_cons, Hok, He. cbn [fst snd].
      change (- EPROTO <? 0) with true. reflexivity.
  - intros en Hok Hr Hl.
    assert (Hk : (2 + Z.to_nat (gcc_count xfer w) <
                  length (enable_seq (u8 (port (dev w))) (Z.to_nat (gcc_count xfer w)) en))%nat)
      by (rewrite enable_seq_length; lia).
    assert (Hf : req_ok (nth (2 + Z.to_nat (gcc_count xfer w))
                   (enable_seq (u8 (port (dev w))) (Z.to_nat (gcc_count xfer w)) en) dummy_req)
                   (step_resp xfer (trace w)
                      (enable_seq (u8 (port (dev w))) (Z.to_nat (gcc_count xfer w)) en)
                      (2 + Z.to_nat (gcc_count xfer w))) = false).
    { rewrite enable_seq_last. unfold req_ok.
      replace (resp_min_len _) with 2 by (destruct en; reflexivity).
      destruct (Z.leb_spec 2 (Z.of_nat (length (resp_data (step_resp xfer (trace w)
                 (enable_seq (u8 (port (dev w))) (Z.to_nat (gcc_count xfer w)) en)
                 (2 + Z.to_nat (gcc_count xfer w))))))); [lia|].
      apply andb_false_r. }
    assert (He : step_err (step_resp xfer (trace w)
                   (enable_seq (u8 (port (dev w))) (Z.to_nat (gcc_count xfer w)) en)
                   (2 + Z.to_nat (gcc_count xfer w))) = - EPROTO)
      by (apply step_err_short; exact Hr).
    pose proof (run_steps_first_fail xfer _ _ _ Hk Hok Hf) as Hrun.
    rewrite He, enable_seq_firstn_all in Hrun.
    split.
    + rewrite set_port_enabled_run. cbv zeta. rewrite Hrun. reflexivity.
    + intros -> H0. rewrite read_uninit by exact H0. cbv zeta. rewrite Hrun.
      cbn [fst snd]. change (- EPROTO <? 0) with true. reflexivity.
  - intros H0 Hr Hl. rewrite read_enabled, read_value_run by exact H0. cbv zeta.
    unfold req_ok at 1, step_err.
    cbn [req_cmd get_val_req resp_min_len].
    destruct (Z.leb_spec 2 (Z.of_nat (length (resp_data (xfer (trace w)
               (get_val_req (u8 (port (dev w))) ch)))))); [lia|].
    rewrite andb_false_r.
    destruct (Z.ltb_spec (resp_ret (xfer (trace w) (get_val_req (u8 (port (dev w))) ch))) 0);
      [lia | reflexivity].
Qed.

(** C7: ChannelGetValue's two payload bytes are read as a little-endian
    16-bit value: for any port and channel, payload [0xFF; 0x03] gives the
    raw value 1023. *)
Theorem get_val_decodes_le16 (w : world) (ch r0 : Z) (b0 b1 : byte) (rest : list byte) :
  chans_enabled (dev w) <> 0 ->
  0 <= r0 ->
  xfer (trace w) (get_val_req (u8 (port (dev w))) ch) = mk_resp r0 (b0 :: b1 :: rest) ->
  fst (dln2_adc_read xfer ch w) = byte_val b0 + 256 * byte_val b1 /\
  (b0 = xff -> b1 = x03 -> fst (dln2_adc_read xfer ch w) = 1023).
Proof.
  intros H0 Hr Hx. rewrite read_enabled, read_value_run by exact H0. cbv zeta.
  rewrite Hx. unfold req_ok. cbn [resp_ret resp_data req_cmd get_val_req resp_min_len fst].
  destruct (Z.leb_spec 0 r0); [|lia].
  destruct (Z.leb_spec 2 (Z.of_nat (length (b0 :: b1 :: rest)))) as [_|Hl];
    [|cbn [length] in Hl; lia].
  cbn [andb le16_to_cpu]. split; [reflexivity|]. intros -> ->. reflexivity.
Qed.

(** C8 (as corrected): a successful read returns exactly the 16-bit
    little-endian field of the response to its ChannelGetValue request
    (the last request it sends), unmasked, so its value lies in
    0 .. 65535. *)
Theorem read_value_16bit (w : world) (ch : Z) :
  0 <= fst (dln2_adc_read xfer ch w) ->
  exists h,
    trace (snd (dln2_adc_read xfer ch w)) = h ++ [get_val_req (u8 (port (dev w))) ch] /\
    fst (dln2_adc_read xfer ch w) =
      le16_to_cpu (resp_data (xfer h (get_val_req (u8 (port (dev w))) ch))) /\
    fst (dln2_adc_read xfer ch w) <= 65535.
Proof.
  intros Hr.
  assert (Hv : forall w', port (dev w') = port (dev w) ->
             0 <= fst (dln2_adc_read_value xfer ch w') ->
             exists h,
               trace (snd (dln2_adc_read_value xfer ch w')) =
                 h ++ [get_val_req (u8 (port (dev w))) ch] /\
               fst (dln2_adc_read_value xfer ch w') =
                 le16_to_cpu (resp_data (xfer h (get_val_req (u8 (port (dev w))) ch))) /\
               fst (dln2_adc_read_value xfer ch w') <= 65535).
  { intros w' Hp Hr'. rewrite read_value_run in Hr' |- *. cbv zeta in Hr' |- *.
    rewrite Hp in Hr' |- *. cbn [fst snd trace] in Hr' |- *.
    exists (trace w').
    destruct (req_ok _ _).
    - split; [reflexivity | split; [reflexivity|]].
      pose proof (le16_range (resp_data (xfer (trace w')
                    (get_val_req (u8 (port (dev w))) ch)))). lia.
    - pose proof (step_err_neg (xfer (trace w') (get_val_req (u8 (port (dev w))) ch))).
      lia. }
  destruct (Z.eqb_spec (chans_enabled (dev w)) 0) as [H0 | H0].
  - rewrite (read_uninit xfer ch w H0) in Hr |- *. cbv zeta in Hr |- *.
    destruct (run_steps xfer _ _) as [e l]. cbn [fst snd] in Hr |- *.
    destruct (Z.ltb_spec e 0) as [He | He].
    + cbn [fst] in Hr. lia.
    + apply Hv; [reflexivity | exact Hr].
  - rewrite (read_enabled xfer ch w H0) in Hr |- *. apply Hv; [reflexivity | exact Hr].
Qed.

(** C9: whatever the host does (reads with any mask and channel, remove),
    the driver never sends PortDisable or ChannelDisable, never clears
    the enabled flag once set, and [remove] sends nothing and changes
    nothing. *)
Theorem no_disable_ever (ops : list dln2_adc_op) (w : world) :
  let w' := snd (dln2_adc_run xfer ops w) in
  (exists t, trace w' = trace w ++ t /\ Forall no_disable t) /\
  (chans_enabled (dev w) <> 0 -> chans_enabled (dev w') <> 0) /\
  dln2_adc_remove w = (0, w).
Proof.
  cbv zeta. split; [|split; [|reflexivity]].
  - revert w. induction ops as [|op ops IH]; intros w; simpl.
    + exists []. rewrite app_nil_r. split; [reflexivity | constructor].
    + destruct op as [ch v v2 m|]; unfold bind.
      * destruct (read_raw_cases xfer ch v v2 m w) as [E | E];
          destruct (dln2_adc_read_raw xfer ch v v2 m w) as [r w1]; cbn [snd] in E;
          subst w1.
        -- exact (IH w).
        -- destruct (read_no_disable xfer (u32 ch) w) as [t1 [Ht1 Hf1]].
           destruct (IH (snd (dln2_adc_read xfer (u32 ch) w))) as [t2 [Ht2 Hf2]].
           exists (t1 ++ t2). rewrite Ht2, Ht1, app_assoc.
           split; [reflexivity | apply Forall_app; split; assumption].
      * exact (IH w).
  - revert w. induction ops as [|op ops IH]; intros w H; simpl; [exact H|].
    destruct op as [ch v v2 m|]; unfold bind.
    + destruct (read_raw_cases xfer ch v v2 m w) as [E | E];
        destruct (dln2_adc_read_raw xfer ch v v2 m w) as [r w1]; cbn [snd] in E;
        subst w1.
      * exact (IH w H).
      * apply IH. destruct (read_dev xfer (u32 ch) w) as [E | E]; rewrite E;
          [exact H | cbn; lia].
    + exact (IH w H).
Qed.

(** C10: with a mask other than [IIO_CHAN_INFO_RAW], [read_raw] returns
    [-EINVAL], sends nothing, leaves the context alone and gives back
    [*val] and [*val2] unchanged. *)
Theorem read_raw_other_mask (ch val val2 mask : Z) (w : world) :
  mask <> IIO_CHAN_INFO_RAW ->
  dln2_adc_read_raw xfer ch val val2 mask w = ((- EINVAL, val, val2), w).
Proof.
  intros Hm. unfold dln2_adc_read_raw.
  destruct (Z.eqb_spec mask IIO_CHAN_INFO_RAW); [contradiction | reflexivity].
Qed.

(** C2 (as corrected): [dln2_adc_read] has no range check on the channel.
    On an Enabled context any index reaches the adapter as a single
    ChannelGetValue carrying its low byte; [read_raw] sends the same
    requests as the read of its channel converted to [unsigned] (so -1
    is sent as 255); on an Uninitialized context the enable sequence runs
    first, up to its first failing step, and the ChannelGetValue with the
    low byte of the channel follows only when that sequence succeeded.
    The channel table handed to the IIO core has the entries 0 .. 7, each
    of which reaches the adapter unchanged. *)
Theorem read_no_range_check (w : world) (ch : Z) :
  let p := u8 (port (dev w)) in
  let gv := mk_req DLN2_ADC_CHANNEL_GET_VAL [p; u8 ch] in
  let rs := run_steps xfer (trace w) (enable_seq p (Z.to_nat (gcc_count xfer w)) true) in
  (chans_enabled (dev w) <> 0 -> trace (snd (dln2_adc_read xfer ch w)) = trace w ++ [gv]) /\
  (forall val val2,
     trace (snd (dln2_adc_read_raw xfer ch val val2 IIO_CHAN_INFO_RAW w)) =
     trace (snd (dln2_adc_read xfer ch w))) /\
  (chans_enabled (dev w) = 0 ->
     trace (snd (dln2_adc_read xfer ch w)) =
     trace w ++ snd rs ++ (if fst rs <? 0 then [] else [gv])) /\
  Forall (fun c => 0 <= c < DLN2_ADC_MAX_CHANNELS /\ u8 (u32 c) = c) dln2_adc_iio_channels.
Proof.
  cbv zeta. split; [|split; [|split]].
  - intros H0. rewrite read_enabled, read_value_run by exact H0. reflexivity.
  - intros val val2. rewrite read_raw_raw_world.
    rewrite (read_low_byte xfer (u32 ch) ch w (u8_u32 ch)). reflexivity.
  - intros H0. rewrite (read_uninit xfer ch w H0). cbv zeta.
    destruct (run_steps xfer _ _) as [e l]. cbn [fst snd].
    destruct (e <? 0).
    + cbn [snd trace]. rewrite app_nil_r. reflexivity.
    + rewrite read_value_run. cbn [snd trace dev port]. unfold get_val_req.
      rewrite <- app_assoc. reflexivity.
  - unfold dln2_adc_iio_channels, DLN2_ADC_MAX_CHANNELS.
    repeat (apply Forall_cons; [split; [lia | reflexivity] |]). apply Forall_nil.
Qed.

End Claims.

(** * Further properties of the driver *)

Section Extras.

Variable xfer : list dln2_req -> dln2_req -> dln2_resp.

(** X1: [read_raw] with mask [IIO_CHAN_INFO_RAW] has exactly the effects
    of [dln2_adc_read] on the channel converted to [unsigned]; when that
    read succeeds it returns [IIO_VAL_INT] with [*val] the value read (in
    0 .. 65535) and [*val2] untouched, and when it fails it returns
    [-EINVAL] with [*val] and [*val2] untouched. *)
Theorem read_raw_raw_outcome (ch val val2 : Z) (w : world) :
  let rd := dln2_adc_read xfer (u32 ch) w in
  let rr := dln2_adc_read_raw xfer ch val val2 IIO_CHAN_INFO_RAW w in
  snd rr = snd rd /\
  (0 <= fst rd -> fst rr = (IIO_VAL_INT, fst rd, val2) /\ fst rd <= 65535) /\
  (fst rd < 0 -> fst rr = (- EINVAL, val, val2)).
Proof.
  cbv zeta. split; [apply read_raw_raw_world|].
  pose proof (read_success_bound xfer (u32 ch) w) as Hb.
  unfold dln2_adc_read_raw. change (IIO_CHAN_INFO_RAW =? IIO_CHAN_INFO_RAW) with true.
  cbv iota. unfold bind, ret. cbv beta.
  destruct (dln2_adc_read xfer (u32 ch) w) as [r w']. cbn [fst snd] in *.
  split; intros Hr.
  - destruct (Z.ltb_spec r 0); [lia|]. split; [reflexivity | apply Hb; exact Hr].
  - destruct (Z.ltb_spec r 0); [reflexivity | lia].
Qed.

(** X2: [dln2_adc_get_chan_count] sends one GetChannelCount request for
    the port and leaves the context alone; a transport error is returned
    as is, and otherwise a non-empty response gives its first byte as the
    count, which lies in 0 .. 255 (later bytes are ignored). *)
Theorem get_chan_count_result (w : world) :
  let gcc := mk_req DLN2_ADC_GET_CHANNEL_COUNT [u8 (port (dev w))] in
  let rs := xfer (trace w) gcc in
  snd (dln2_adc_get_chan_count xfer w) = mk_world (dev w) (trace w ++ [gcc]) /\
  (resp_ret rs < 0 -> fst (dln2_adc_get_chan_count xfer w) = resp_ret rs) /\
  (forall c d, 0 <= resp_ret rs -> resp_data rs = c :: d ->
   fst (dln2_adc_get_chan_count xfer w) = byte_val c /\ 0 <= byte_val c < 256).
Proof.
  cbv zeta. rewrite get_chan_count_run. unfold gcc_count, req_ok, step_err. cbv zeta.
  destruct (xfer (trace w) _) as [r0 d0].
  cbn [resp_ret resp_data req_cmd resp_min_len fst snd].
  split; [reflexivity | split].
  - intros Hr. destruct (Z.leb_spec 0 r0); [lia|]. cbn [andb].
    destruct (Z.ltb_spec r0 0); [reflexivity | lia].
  - intros c d Hr Hd. subst d0. destruct (Z.leb_spec 0 r0); [|lia].
    destruct (Z.leb_spec 1 (Z.of_nat (length (c :: d)))) as [_|Hl];
      [|cbn [length] in Hl; lia].
    cbn [andb]. split; [reflexivity | apply byte_val_range].
Qed.

(** X3: [dln2_adc_set_port_enabled], with [enable] true or false, never
    changes the context and never sends ChannelDisable (also when it
    disables the port, it enables every channel first); when every step
    gets an acceptable response it returns 0 having sent exactly
    GetChannelCount, SetResolution, ChannelEnable for each channel and
    PortEnable or PortDisable, and otherwise it returns a negative error. *)
Theorem set_port_enabled_effects (en : bool) (w : world) :
  let cmds := enable_seq (u8 (port (dev w))) (Z.to_nat (gcc_count xfer w)) en in
  let r := dln2_adc_set_port_enabled xfer en w in
  dev (snd r) = dev w /\
  (exists t, trace (snd r) = trace w ++ t /\
             Forall (fun q => req_cmd q <> DLN2_ADC_CHANNEL_DISABLE) t) /\
  (steps_ok xfer (trace w) cmds (length cmds) = true ->
   fst r = 0 /\ trace (snd r) = trace w ++ cmds) /\
  (steps_ok xfer (trace w) cmds (length cmds) = false -> fst r < 0).
Proof.
  cbv zeta. rewrite set_port_enabled_run. cbv zeta. cbn [fst snd dev trace].
  set (cmds := enable_seq (u8 (port (dev w))) (Z.to_nat (gcc_count xfer w)) en).
  split; [reflexivity | split; [|split]].
  - exists (snd (run_steps xfer (trace w) cmds)). split; [reflexivity|].
    apply run_steps_Forall. apply enable_seq_no_chan_disable.
  - intros Hok. rewrite (run_steps_all_ok xfer _ _ Hok). split; reflexivity.
  - intros Hok. destruct (run_steps_cases xfer (trace w) cmds) as [[_ H] | [H _]];
      [congruence | exact H].
Qed.

(** X4: channels are sent as their low byte only: two channel numbers
    with the same low byte (such as 5, 261 and -251) give the same read
    and the same [read_raw], results and requests alike. *)
Theorem read_channel_low_byte (c1 c2 val val2 mask : Z) (w : world) :
  u8 c1 = u8 c2 ->
  dln2_adc_read xfer c1 w = dln2_adc_read xfer c2 w /\
  dln2_adc_read_raw xfer c1 val val2 mask w = dln2_adc_read_raw xfer c2 val val2 mask w.
Proof.
  intros H. split; [apply read_low_byte; exact H|].
  unfold dln2_adc_read_raw. destruct (mask =? IIO_CHAN_INFO_RAW); [|reflexivity].
  unfold bind. cbv beta.
  rewrite (read_low_byte xfer (u32 c1) (u32 c2)) by (rewrite !u8_u32; exact H).
  reflexivity.
Qed.

(** X5: a read on an Uninitialized context either fails before the
    enabled flag is set, leaving the context as it was, and then the next
    read starts the whole enable sequence again with GetChannelCount; or
    it sets the flag (even if its ChannelGetValue then fails), and the
    next read sends only its ChannelGetValue. *)
Theorem uninit_read_retry (ch ch2 : Z) (w : world) :
  chans_enabled (dev w) = 0 ->
  let w1 := snd (dln2_adc_read xfer ch w) in
  (dev w1 = dev w /\ fst (dln2_adc_read xfer ch w) < 0 /\
   exists rest, trace (snd (dln2_adc_read xfer ch2 w1)) =
                trace w1 ++ mk_req DLN2_ADC_GET_CHANNEL_COUNT [u8 (port (dev w))] :: rest)
  \/
  (dev w1 = mk_adc (port (dev w)) 1 /\
   trace (snd (dln2_adc_read xfer ch2 w1)) =
   trace w1 ++ [get_val_req (u8 (port (dev w))) ch2]).
Proof.
  intros H0. cbv zeta. rewrite (read_uninit xfer ch w H0). cbv zeta.
  destruct (run_steps_cases xfer (trace w)
              (enable_seq (u8 (port (dev w))) (Z.to_nat (gcc_count xfer w)) true))
    as [[E _] | [Hneg _]].
  - rewrite E. cbn [fst snd]. change (0 <? 0) with false. cbv iota.
    rewrite (read_value_run xfer ch). cbv zeta. cbn [snd dev].
    right. split; [reflexivity|].
    rewrite read_enabled by (cbn; lia). rewrite read_value_run. reflexivity.
  - destruct (run_steps xfer _ _) as [e l]. cbn [fst] in Hneg. cbn [fst snd].
    replace (e <? 0) with true by (symmetry; apply Z.ltb_lt; exact Hneg).
    cbn [fst snd dev]. left. split; [reflexivity | split; [exact Hneg|]].
    exact (read_uninit_first xfer ch2 (mk_world (dev w) (trace w ++ l)) H0).
Qed.

(** X6: on an Enabled context, any sequence of host operations leaves the
    context unchanged and sends exactly one ChannelGetValue per [read_raw]
    with mask [IIO_CHAN_INFO_RAW], in order, for the low byte of its
    channel; other masks and [remove] send nothing. *)
Theorem enabled_run_get_val_only (ops : list dln2_adc_op) (w : world) :
  chans_enabled (dev w) <> 0 ->
  dev (snd (dln2_adc_run xfer ops w)) = dev w /\
  trace (snd (dln2_adc_run xfer ops w)) =
  trace w ++ map (fun c => get_val_req (u8 (port (dev w))) (u32 c)) (raw_reads ops).
Proof.
  revert w. induction ops as [|op ops IH]; intros w H0.
  - cbn. rewrite app_nil_r. split; reflexivity.
  - destruct op as [ch v v2 m|].
    + cbn [dln2_adc_run raw_reads]. unfold bind.
      pose proof (read_raw_world xfer ch v v2 m w) as Ew.
      destruct (dln2_adc_read_raw xfer ch v v2 m w) as [r w1]. cbn [snd] in Ew.
      destruct (m =? IIO_CHAN_INFO_RAW).
      * rewrite read_enabled, read_value_run in Ew by exact H0. cbn [snd] in Ew.
        subst w1.
        destruct (IH (mk_world (dev w) (trace w ++ [get_val_req (u8 (port (dev w))) (u32 ch)]))
                    H0) as [Hd Ht].
        cbn [dev trace] in Hd, Ht.
        split; [exact Hd|]. rewrite Ht, <- app_assoc. reflexivity.
      * subst w1. exact (IH w H0).
    + cbn [dln2_adc_run raw_reads]. unfold bind, dln2_adc_remove, ret.
      exact (IH w H0).
Qed.

(** X7: no sequence of host operations changes the port, and the enabled
    flag either keeps its value or ends up 1. *)
Theorem run_dev_cases (ops : list dln2_adc_op) (w : world) :
  dev (snd (dln2_adc_run xfer ops w)) = dev w \/
  dev (snd (dln2_adc_run xfer ops w)) = mk_adc (port (dev w)) 1.
Proof.
  revert w. induction ops as [|op ops IH]; intros w.
  - left. reflexivity.
  - destruct op as [ch v v2 m|].
    + cbn [dln2_adc_run]. unfold bind.
      pose proof (read_raw_world xfer ch v v2 m w) as Ew.
      destruct (dln2_adc_read_raw xfer ch v v2 m w) as [r w1]. cbn [snd] in Ew.
      assert (H1 : dev w1 = dev w \/ dev w1 = mk_adc (port (dev w)) 1).
      { destruct (m =? IIO_CHAN_INFO_RAW); subst w1;
          [apply read_dev | left; reflexivity]. }
      destruct H1 as [H1 | H1]; destruct (IH w1) as [H2 | H2]; rewrite H2, H1;
        [left | right | right | right]; reflexivity.
    + cbn [dln2_adc_run]. unfold bind, dln2_adc_remove, ret. exact (IH w).
Qed.

(** X8: a successful read on an Uninitialized context sends exactly as
    many ChannelEnable requests as the count the adapter reported, with
    no cap at [DLN2_ADC_MAX_CHANNELS] (at most 255, the count being one
    byte). *)
Theorem first_read_chan_enable_count (ch : Z) (w : world) :
  chans_enabled (dev w) = 0 ->
  0 <= fst (dln2_adc_read xfer ch w) ->
  exists t, trace (snd (dln2_adc_read xfer ch w)) = trace w ++ t /\
            count_chan_enable t = Z.to_nat (gcc_count xfer w) /\
            (count_chan_enable t <= 255)%nat.
Proof.
  intros H0 Hr. pose proof (gcc_count_range xfer w) as Hc.
  rewrite (read_uninit xfer ch w H0) in Hr |- *. cbv zeta in Hr |- *.
  destruct (run_steps_cases xfer (trace w)
              (enable_seq (u8 (port (dev w))) (Z.to_nat (gcc_count xfer w)) true))
    as [[E _] | [Hneg _]].
  - rewrite E. cbn [fst snd]. change (0 <? 0) with false. cbv iota.
    rewrite read_value_run. cbn [snd trace dev port].
    exists (enable_seq (u8 (port (dev w))) (Z.to_nat (gcc_count xfer w)) true
            ++ [get_val_req (u8 (port (dev w))) ch]).
    rewrite count_chan_enable_app, count_chan_enable_seq. cbn [count_chan_enable get_val_req req_cmd].
    split; [rewrite app_assoc; reflexivity | split; lia].
  - destruct (run_steps xfer _ _) as [e l]. cbn [fst] in Hneg, Hr.
    replace (e <? 0) with true in Hr by (symmetry; apply Z.ltb_lt; exact Hneg).
    cbn [fst] in Hr. lia.
Qed.

(** X9: [dln2_adc_probe] leaves the context Uninitialized on the given
    port, so the first [read_raw] with mask [IIO_CHAN_INFO_RAW] after
    probe begins with GetChannelCount for that port, whatever was sent
    before. *)
Theorem probe_first_read (p ch val val2 : Z) (h : list dln2_req) :
  port (dln2_adc_probe p) = p /\ chans_enabled (dln2_adc_probe p) = 0 /\
  exists rest,
    trace (snd (dln2_adc_read_raw xfer ch val val2 IIO_CHAN_INFO_RAW
                  (mk_world (dln2_adc_probe p) h))) =
    h ++ mk_req DLN2_ADC_GET_CHANNEL_COUNT [u8 p] :: rest.
Proof.
  split; [reflexivity | split; [reflexivity|]].
  rewrite read_raw_raw_world.
  exact (read_uninit_first xfer (u32 ch) (mk_world (dln2_adc_probe p) h) eq_refl).
Qed.

(** X10: SetResolution and ChannelEnable/ChannelDisable carry no response
    payload and have no length check: each sends one request for the port
    (the channel as its low byte, the resolution as 10), returns the
    transport's error when it is negative and 0 otherwise, and leaves the
    context alone. *)
Theorem tx_commands_result (ch : Z) (en : bool) (w : world) :
  let p := u8 (port (dev w)) in
  let sr := mk_req DLN2_ADC_SET_RESOLUTION [p; DLN2_ADC_DATA_BITS] in
  let ce := mk_req (if en then DLN2_ADC_CHANNEL_ENABLE else DLN2_ADC_CHANNEL_DISABLE)
              [p; u8 ch] in
  snd (dln2_adc_set_port_resolution xfer w) = mk_world (dev w) (trace w ++ [sr]) /\
  fst (dln2_adc_set_port_resolution xfer w) = Z.min (resp_ret (xfer (trace w) sr)) 0 /\
  snd (dln2_adc_set_chan_enabled xfer ch en w) = mk_world (dev w) (trace w ++ [ce]) /\
  fst (dln2_adc_set_chan_enabled xfer ch en w) = Z.min (resp_ret (xfer (trace w) ce)) 0.
Proof.
  cbv zeta.
  unfold dln2_adc_set_port_resolution, dln2_adc_set_chan_enabled, dln2_transfer_tx,
    bind, get, ret.
  change (u8 DLN2_ADC_DATA_BITS) with DLN2_ADC_DATA_BITS. cbv beta iota zeta.
  destruct (Z.ltb_spec (resp_ret (xfer (trace w)
             (mk_req DLN2_ADC_SET_RESOLUTION [u8 (port (dev w)); DLN2_ADC_DATA_BITS]))) 0);
  destruct (Z.ltb_spec (resp_ret (xfer (trace w)
             (mk_req (if en then DLN2_ADC_CHANNEL_ENABLE else DLN2_ADC_CHANNEL_DISABLE)
                [u8 (port (dev w)); u8 ch]))) 0);
  cbn [fst snd]; (split; [reflexivity | split; [lia | split; [reflexivity | lia]]]).
Qed.

End Extras.

(** * Witnesses, counterexamples and the [read_raw] error path

    All run on the concrete adapter [demo_device] of port 2; [dev_fault i
    rs] answers [rs] to the request sent at history length [i]. *)

Definition dev_fault (i : nat) (rs : dln2_resp) := demo_device (Some (i, rs)).

(** C1: [read_raw] loses the error of the read.  The adapter fails the
    ChannelGetValue of an Enabled context with [-EIO] (-5): [dln2_adc_read]
    returns -5, but [dln2_adc_read_raw] breaks out of the switch and
    returns [-EINVAL] (-22), with [*val] untouched. *)
Lemma read_raw_replaces_error :
  fst (dln2_adc_read (dev_fault 0 (mk_resp (-5) [])) 0 (demo_world 2 1)) = -5 /\
  fst (dln2_adc_read_raw (dev_fault 0 (mk_resp (-5) [])) 0 7 8 IIO_CHAN_INFO_RAW
         (demo_world 2 1)) = (- EINVAL, 7, 8) /\
  - EINVAL <> -5.
Proof. vm_compute. repeat split; discriminate. Qed.

(** C2: out-of-range indices reach the adapter: on an Enabled context
    read(8) sends ChannelGetValue [2; 8] and returns the adapter's value,
    read(-1) (as [unsigned]) sends [2; 255], and on an Uninitialized
    context read(8) sends the ten requests of the enable sequence and the
    read. *)
Lemma read_out_of_range_reaches_adapter :
  trace (snd (dln2_adc_read (demo_device None) 8 (demo_world 2 1)))
    = [mk_req DLN2_ADC_CHANNEL_GET_VAL [2; 8]] /\
  fst (dln2_adc_read (demo_device None) 8 (demo_world 2 1)) = 1023 /\
  trace (snd (dln2_adc_read (demo_device None) (u32 (-1)) (demo_world 2 1)))
    = [mk_req DLN2_ADC_CHANNEL_GET_VAL [2; 255]] /\
  length (trace (snd (dln2_adc_read (demo_device None) 8 (demo_world 2 0)))) = 10%nat.
Proof. vm_compute. repeat split. Qed.

Lemma read_no_range_check_witness :
  trace (snd (dln2_adc_read (demo_device None) 8 (demo_world 2 1))) =
    [] ++ [mk_req DLN2_ADC_CHANNEL_GET_VAL [u8 2; u8 8]] /\
  trace (snd (dln2_adc_read_raw (demo_device None) (-1) 0 0 IIO_CHAN_INFO_RAW
                (demo_world 2 1))) =
    [] ++ [mk_req DLN2_ADC_CHANNEL_GET_VAL [u8 2; u8 (-1)]] /\
  trace (snd (dln2_adc_read (demo_device None) 8 (demo_world 2 0))) =
    enable_seq 2 6 true ++ [mk_req DLN2_ADC_CHANNEL_GET_VAL [2; 8]].
Proof.
  pose proof (read_no_range_check (demo_device None) (demo_world 2 1) 8) as A.
  pose proof (read_no_range_check (demo_device None) (demo_world 2 1) (-1)) as C.
  pose proof (read_no_range_check (demo_device None) (demo_world 2 0) 8) as B.
  cbv zeta in A, B, C. split; [|split].
  - exact (proj1 A (ltac:(vm_compute; discriminate))).
  - rewrite (proj1 (proj2 C) 0 0). exact (proj1 C (ltac:(vm_compute; discriminate))).
  - rewrite (proj1 (proj2 (proj2 B)) eq_refl). vm_compute. reflexivity.
Defined.

(** C3: a full first read with a 6-channel adapter. *)
Lemma enable_sequence_order_witness :
  let w := demo_world 2 0 in
  let cmds := enable_seq 2 6 true in
  let w' := snd (dln2_adc_read (demo_device None) 5 w) in
  (chans_enabled (dev w') <> 0 <->
   steps_ok (demo_device None) [] cmds (length cmds) = true) /\
  (steps_ok (demo_device None) [] cmds (length cmds) = true ->
   chans_enabled (dev w') = 1 /\ trace w' = [] ++ cmds ++ [get_val_req 2 5]).
Proof.
  apply (enable_sequence_order (demo_device None) (demo_world 2 0) 5).
  reflexivity.
Defined.

(** C4: the 5th of 6 ChannelEnable requests (step 6) fails with -5. *)
Lemma enable_failure_stops_witness :
  dln2_adc_read (dev_fault 6 (mk_resp (-5) [])) 5 (demo_world 2 0) =
  (step_err (step_resp (dev_fault 6 (mk_resp (-5) [])) [] (enable_seq 2 6 true) 6),
   mk_world (mk_adc 2 0) ([] ++ firstn 7 (enable_seq 2 6 true))).
Proof.
  exact (enable_failure_stops (dev_fault 6 (mk_resp (-5) [])) (demo_world 2 0) 5 6
           eq_refl (ltac:(apply Nat.ltb_lt; vm_compute; reflexivity)) eq_refl eq_refl).
Defined.

(** C5: a first read, then reads on channels 0, 7 and 3. *)
Lemma enabled_read_only_get_val_witness :
  let w1 := snd (dln2_adc_read (demo_device None) 5 (demo_world 2 0)) in
  chans_enabled (dev w1) <> 0 /\
  trace (snd (dln2_adc_read_all (demo_device None) [0; 7; 3] w1)) =
  trace w1 ++ map (get_val_req (u8 (port (dev w1)))) [0; 7; 3].
Proof.
  apply (enabled_read_only_get_val (demo_device None) (demo_world 2 0) 5 [0; 7; 3]).
  vm_compute. discriminate.
Defined.

(** C6: a zero-byte GetChannelCount, a one-byte PortEnable and a one-byte
    ChannelGetValue response, each with a successful transfer. *)
Lemma short_response_framing_error_witness :
  dln2_adc_read (dev_fault 0 (mk_resp 0 [])) 5 (demo_world 2 0) =
  (- EPROTO, mk_world (mk_adc 2 0) ([] ++ [mk_req DLN2_ADC_GET_CHANNEL_COUNT [u8 2]])) /\
  dln2_adc_read (dev_fault 8 (mk_resp 0 [x00])) 5 (demo_world 2 0) =
  (- EPROTO, mk_world (mk_adc 2 0) ([] ++ enable_seq 2 6 true)) /\
  dln2_adc_read (dev_fault 0 (mk_resp 0 [xff])) 5 (demo_world 2 1) =
  (- EPROTO, mk_world (mk_adc 2 1) ([] ++ [get_val_req 2 5])).
Proof.
  split; [|split].
  - pose proof (short_response_framing_error (dev_fault 0 (mk_resp 0 []))
                  (demo_world 2 0) 5) as H.
    cbv zeta in H. destruct H as [A _].
    exact (proj2 (A (ltac:(vm_compute; discriminate)) eq_refl) eq_refl).
  - pose proof (short_response_framing_error (dev_fault 8 (mk_resp 0 [x00]))
                  (demo_world 2 0) 5) as H.
    cbv zeta in H. destruct H as [_ [B _]].
    exact (proj2 (B true eq_refl (ltac:(vm_compute; discriminate))
                    (ltac:(apply Nat.ltb_lt; vm_compute; reflexivity))) eq_refl eq_refl).
  - pose proof (short_response_framing_error (dev_fault 0 (mk_resp 0 [xff]))
                  (demo_world 2 1) 5) as H.
    cbv zeta in H. destruct H as [_ [_ C]].
    exact (C (ltac:(vm_compute; discriminate)) (ltac:(vm_compute; discriminate))
             (ltac:(apply Nat.ltb_lt; vm_compute; reflexivity))).
Defined.

(** C7: payload [0xFF; 0x03] on port 2, channel 5. *)
Lemma get_val_decodes_le16_witness :
  fst (dln2_adc_read (demo_device None) 5 (demo_world 2 1)) =
  byte_val xff + 256 * byte_val x03 /\
  (xff = xff -> x03 = x03 -> fst (dln2_adc_read (demo_device None) 5 (demo_world 2 1)) = 1023).
Proof.
  apply (get_val_decodes_le16 (demo_device None) (demo_world 2 1) 5 0 xff x03 []).
  - vm_compute. discriminate.
  - vm_compute. discriminate.
  - reflexivity.
Defined.

(** C8: the adapter answers ChannelGetValue with [0xFF; 0xFF]; the read
    succeeds with 65535, outside 0 .. 1023. *)
Lemma read_value_exceeds_10_bits :
  let r := fst (dln2_adc_read (dev_fault 0 (mk_resp 0 [xff; xff])) 0 (demo_world 2 1)) in
  0 <= r /\ 1023 < r.
Proof.
  assert (E : fst (dln2_adc_read (dev_fault 0 (mk_resp 0 [xff; xff])) 0 (demo_world 2 1))
              = 65535) by (vm_compute; reflexivity).
  cbv zeta. rewrite E. lia.
Defined.

Lemma read_value_16bit_witness :
  exists h,
    trace (snd (dln2_adc_read (dev_fault 0 (mk_resp 0 [xff; xff])) 0 (demo_world 2 1))) =
      h ++ [get_val_req (u8 2) 0] /\
    fst (dln2_adc_read (dev_fault 0 (mk_resp 0 [xff; xff])) 0 (demo_world 2 1)) =
      le16_to_cpu (resp_data (dev_fault 0 (mk_resp 0 [xff; xff]) h (get_val_req (u8 2) 0))) /\
    fst (dln2_adc_read (dev_fault 0 (mk_resp 0 [xff; xff])) 0 (demo_world 2 1)) <= 65535.
Proof.
  apply (read_value_16bit (dev_fault 0 (mk_resp 0 [xff; xff])) (demo_world 2 1) 0).
  vm_compute. discriminate.
Defined.

(** C10: [read_raw] with mask 1 ([IIO_CHAN_INFO_PROCESSED]). *)
Lemma read_raw_other_mask_witness :
  dln2_adc_read_raw (demo_device None) 5 7 8 1 (demo_world 2 0) =
  ((- EINVAL, 7, 8), demo_world 2 0).
Proof.
  apply (read_raw_other_mask (demo_device None) 5 7 8 1 (demo_world 2 0)).
  discriminate.
Defined.

(** X1: a successful and a failing [read_raw] of channel 5. *)
Lemma read_raw_raw_outcome_witness :
  fst (dln2_adc_read_raw (demo_device None) 5 7 8 IIO_CHAN_INFO_RAW (demo_world 2 1))
    = (IIO_VAL_INT, 1023, 8) /\
  fst (dln2_adc_read_raw (dev_fault 0 (mk_resp (-5) [])) 5 7 8 IIO_CHAN_INFO_RAW
         (demo_world 2 1)) = (- EINVAL, 7, 8).
Proof.
  pose proof (read_raw_raw_outcome (demo_device None) 5 7 8 (demo_world 2 1)) as A.
  pose proof (read_raw_raw_outcome (dev_fault 0 (mk_resp (-5) [])) 5 7 8
                (demo_world 2 1)) as B.
  cbv zeta in A, B. split.
  - rewrite (proj1 (proj1 (proj2 A) (ltac:(vm_compute; discriminate)))).
    vm_compute. reflexivity.
  - exact (proj2 (proj2 B) (ltac:(vm_compute; reflexivity))).
Defined.

(** X2: a one-byte count 6, and a transport error -5. *)
Lemma get_chan_count_result_witness :
  fst (dln2_adc_get_chan_count (demo_device None) (demo_world 2 0)) = byte_val x06 /\
  fst (dln2_adc_get_chan_count (dev_fault 0 (mk_resp (-5) [])) (demo_world 2 0)) = -5.
Proof.
  pose proof (get_chan_count_result (demo_device None) (demo_world 2 0)) as A.
  pose proof (get_chan_count_result (dev_fault 0 (mk_resp (-5) [])) (demo_world 2 0)) as B.
  cbv zeta in A, B. split.
  - exact (proj1 (proj2 (proj2 A) x06 [] (ltac:(vm_compute; discriminate)) eq_refl)).
  - exact (proj1 (proj2 B) (ltac:(vm_compute; reflexivity))).
Defined.

(** X3: [dln2_adc_set_port_enabled false] on the 6-channel adapter. *)
Lemma set_port_enabled_effects_witness :
  fst (dln2_adc_set_port_enabled (demo_device None) false (demo_world 2 0)) = 0 /\
  trace (snd (dln2_adc_set_port_enabled (demo_device None) false (demo_world 2 0)))
    = [] ++ enable_seq 2 6 false.
Proof.
  pose proof (set_port_enabled_effects (demo_device None) false (demo_world 2 0)) as A.
  cbv zeta in A.
  exact (proj1 (proj2 (proj2 A)) (ltac:(vm_compute; reflexivity))).
Defined.

(** X4: channels -251 and 5 share their low byte. *)
Lemma read_channel_low_byte_witness :
  dln2_adc_read (demo_device None) (-251) (demo_world 2 0) =
  dln2_adc_read (demo_device None) 5 (demo_world 2 0) /\
  dln2_adc_read_raw (demo_device None) (-251) 7 8 IIO_CHAN_INFO_RAW (demo_world 2 0) =
  dln2_adc_read_raw (demo_device None) 5 7 8 IIO_CHAN_INFO_RAW (demo_world 2 0).
Proof.
  apply (read_channel_low_byte (demo_device None) (-251) 5 7 8 IIO_CHAN_INFO_RAW
           (demo_world 2 0)).
  reflexivity.
Defined.

(** X5: GetChannelCount fails with -5 on the first read; the second read
    starts again. *)
Lemma uninit_read_retry_witness :
  let xf := dev_fault 0 (mk_resp (-5) []) in
  let w := demo_world 2 0 in
  let w1 := snd (dln2_adc_read xf 5 w) in
  (dev w1 = dev w /\ fst (dln2_adc_read xf 5 w) < 0 /\
   exists rest, trace (snd (dln2_adc_read xf 3 w1)) =
                trace w1 ++ mk_req DLN2_ADC_GET_CHANNEL_COUNT [u8 (port (dev w))] :: rest)
  \/
  (dev w1 = mk_adc (port (dev w)) 1 /\
   trace (snd (dln2_adc_read xf 3 w1)) = trace w1 ++ [get_val_req (u8 (port (dev w))) 3]).
Proof.
  exact (uninit_read_retry (dev_fault 0 (mk_resp (-5) [])) 5 3 (demo_world 2 0) eq_refl).
Defined.

(** X6: two raw reads, a read with another mask and a remove. *)
Lemma enabled_run_get_val_only_witness :
  let ops := [OpReadRaw 5 0 0 IIO_CHAN_INFO_RAW; OpReadRaw 3 0 0 1; OpRemove;
              OpReadRaw (-1) 0 0 IIO_CHAN_INFO_RAW] in
  dev (snd (dln2_adc_run (demo_device None) ops (demo_world 2 1))) = mk_adc 2 1 /\
  trace (snd (dln2_adc_run (demo_device None) ops (demo_world 2 1))) =
  [] ++ map (fun c => get_val_req (u8 2) (u32 c)) (raw_reads ops).
Proof.
  cbv zeta.
  apply (enabled_run_get_val_only (demo_device None)
           [OpReadRaw 5 0 0 IIO_CHAN_INFO_RAW; OpReadRaw 3 0 0 1; OpRemove;
            OpReadRaw (-1) 0 0 IIO_CHAN_INFO_RAW] (demo_world 2 1)).
  vm_compute. discriminate.
Defined.

(** X8: an adapter reporting 20 channels gets 20 ChannelEnable requests. *)
Lemma first_read_chan_enable_count_witness :
  gcc_count wide_device (demo_world 2 0) = 20 /\
  exists t, trace (snd (dln2_adc_read wide_device 5 (demo_world 2 0))) = [] ++ t /\
            count_chan_enable t = Z.to_nat (gcc_count wide_device (demo_world 2 0)) /\
            (count_chan_enable t <= 255)%nat.
Proof.
  split; [vm_compute; reflexivity|].
  apply (first_read_chan_enable_count wide_device 5 (demo_world 2 0)).
  - reflexivity.
  - vm_compute. discriminate.
Defined.
